(** * Open Babel generic data records (generic.h)

    A shallow embedding of the classes of [generic.h]: the tagged base
    record [OBGenericData], the concrete records derived from it, and
    [OBTorsion].  Member functions whose body the header gives are
    translated statement by statement; a C++ object is a Rocq record and
    a [void] member function returns the updated object. *)

From Stdlib Require Import ZArith NArith List String Ascii Bool Lia.
From Stdlib Require Import Floats.PrimFloat.
Import ListNotations.
Local Open Scope string_scope.

(** ** Scalars, pointers and the small value types the header uses *)

(** A C++ [double] is an IEEE 754 binary64 number. *)
Definition double : Set := float.

(** [OBAtom*], [OBBond*] and [OBRing*] are addresses; the classes are only
    forward-declared, so nothing is ever read through them here. *)
Definition pointer : Set := N.
Definition OBAtom_ptr : Set := pointer.
Definition OBBond_ptr : Set := pointer.
Definition OBRing_ptr : Set := pointer.

(** The null pointer, written [0] and [NULL] in the header. *)
Definition NULL : pointer := 0%N.

(** [unsigned int]: the value of a cast to it is taken modulo 2^32. *)
Definition to_unsigned_int (z : Z) : Z := (z mod 2 ^ 32)%Z.

(** Modelled from the spec: vector3 is declared outside generic.h (no
    header of src declares it); the spec speaks of 3-vectors, so it is
    three doubles. *)
Record vector3 : Set := mk_vector3 { vx : double; vy : double; vz : double }.

(** Modelled from the spec: the template triple<A,B,C> is declared
    outside generic.h; three members, as its use for the
    (A, D, angle) triples of a torsion shows. *)
Record triple (A B C : Type) : Type :=
  mk_triple { first : A; second : B; third : C }.
Arguments mk_triple {A B C} _ _ _.
Arguments first {A B C} _.
Arguments second {A B C} _.
Arguments third {A B C} _.

(** [enum obDataType], in the order of the header. *)
Inductive obDataType : Set :=
| obUndefinedData
| obPairData
| obEnergyData
| obCommentData
| obConformerData
| obExternalBondData
| obRotamerList
| obVirtualBondData
| obRingData
| obTorsionData
| obAngleData
| obSerialNums
| obUnitCell
| obSpinData
| obChargeData
| obSymmetryData
| obChiralData
| obOccupationData
| obDensityData
| obElectronicData
| obVibrationData
| obRotationData
| obNuclearData
| obData0 | obData1 | obData2 | obData3 | obData4 | obData5
| obData6 | obData7 | obData8 | obData9 | obData10 | obData11
| obData12 | obData13 | obData14 | obData15.

(** ** Trim *)

(** Modelled from the spec: the whitespace that Trim removes is not
    listed anywhere in src; it is taken to be the six characters the
    C locale classifies as space (space, TAB, LF, VT, FF, CR). *)
Definition isspace (c : ascii) : bool :=
  let n := N_of_ascii c in
  ((n =? 32) || ((9 <=? n) && (n <=? 13)))%N.

Fixpoint ltrim (txt : string) : string :=
  match txt with
  | EmptyString => EmptyString
  | String c rest => if isspace c then ltrim rest else txt
  end.

Fixpoint rtrim (txt : string) : string :=
  match txt with
  | EmptyString => EmptyString
  | String c rest =>
      match rtrim rest with
      | EmptyString => if isspace c then EmptyString else String c EmptyString
      | kept => String c kept
      end
  end.

(** Modelled from the spec: Trim (generic.h line 35) is only declared,
    its body is not in src.  The spec has the comment text
    "whitespace-trimmed at the boundary": the whitespace at the end and
    at the start of the text is erased, the inside is kept. *)
Definition Trim (txt : string) : string := ltrim (rtrim txt).

(** Every character of [s] is whitespace. *)
Fixpoint all_space (s : string) : bool :=
  match s with
  | EmptyString => true
  | String c rest => isspace c && all_space rest
  end.

(** First and last character of a text, when it has one. *)
Definition front (s : string) : option ascii :=
  match s with
  | EmptyString => None
  | String c _ => Some c
  end.

Fixpoint back (s : string) : option ascii :=
  match s with
  | EmptyString => None
  | String c EmptyString => Some c
  | String _ rest => back rest
  end.

(** The line feed character. *)
Definition LF : ascii := "010"%char.

(** ** OBGenericData *)

Module OBGenericData.

Record t : Set := mk { _attr : string; _type : obDataType }.

Definition SetAttribute (v : string) (g : t) : t :=
  {| _attr := v; _type := _type g |}.

Definition GetAttribute (g : t) : string := _attr g.

Definition GetDataType (g : t) : obDataType := _type g.


End OBGenericData.

(** ** OBCommentData *)

Module OBCommentData.

Record t : Set := mk { base : OBGenericData.t; _data : string }.

(** [_data = data;] *)
Definition assign_data (data : string) (c : t) : t :=
  {| base := base c; _data := data |}.

(** [Trim(_data);] works on the member in place. *)
Definition trim_data (c : t) : t :=
  {| base := base c; _data := Trim (_data c) |}.

(** [void SetData(const std::string &data) { _data = data; Trim(_data); }] *)
Definition SetData (data : string) (c : t) : t :=
  trim_data (assign_data data c).

(** [void SetData(const char *d) {_data = d; Trim(_data); }]; [d] is the
    text of the C string, up to its terminating NUL. *)
Definition SetData_cstr (d : string) (c : t) : t :=
  trim_data (assign_data d c).

Definition GetData (c : t) : string := _data c.

End OBCommentData.

(** ** OBExternalBond and OBExternalBondData *)

Module OBExternalBond.

Record t : Set := mk { _idx : Z; _atom : OBAtom_ptr; _bond : OBBond_ptr }.

Definition GetIdx (e : t) : Z := _idx e.
Definition GetAtom (e : t) : OBAtom_ptr := _atom e.
Definition GetBond (e : t) : OBBond_ptr := _bond e.

Definition SetIdx (idx : Z) (e : t) : t :=
  {| _idx := idx; _atom := _atom e; _bond := _bond e |}.
Definition SetAtom (atom : OBAtom_ptr) (e : t) : t :=
  {| _idx := _idx e; _atom := atom; _bond := _bond e |}.
Definition SetBond (bond : OBBond_ptr) (e : t) : t :=
  {| _idx := _idx e; _atom := _atom e; _bond := bond |}.

End OBExternalBond.

Module OBExternalBondData.

Record t : Set :=
  mk { base : OBGenericData.t; _vexbnd : list OBExternalBond.t }.

(** [GetData()] returns [&_vexbnd]: the caller reads the vector ... *)
Definition GetData (e : t) : list OBExternalBond.t := _vexbnd e.

(** ... and may write it through the pointer it was given. *)
Definition GetData_store (v : list OBExternalBond.t) (e : t) : t :=
  {| base := base e; _vexbnd := v |}.

(** Modelled from the spec: the body of
    [void SetData(OBAtom*,OBBond*,int)] (generic.h line 140) is not in
    src.  The spec has the collection "an ordered sequence" of
    references, each with an atom, a bond and a connection index, that
    is "append-only": one reference is added at the end. *)
Definition SetData (atom : OBAtom_ptr) (bond : OBBond_ptr) (idx : Z) (e : t)
  : t :=
  {| base := base e;
     _vexbnd := _vexbnd e
                ++ [ {| OBExternalBond._idx := idx;
                        OBExternalBond._atom := atom;
                        OBExternalBond._bond := bond |} ] |}.

End OBExternalBondData.

(** ** OBPairData *)

Module OBPairData.

Record t : Set := mk { base : OBGenericData.t; _value : string }.

(** [void SetValue(const char *v) { _value = v; }] *)
Definition SetValue_cstr (v : string) (p : t) : t :=
  {| base := base p; _value := v |}.

(** [void SetValue(const std::string &v) { _value = v; }] *)
Definition SetValue (v : string) (p : t) : t :=
  {| base := base p; _value := v |}.

(** [std::string &GetValue()] hands out the member itself: a read ... *)
Definition GetValue (p : t) : string := _value p.

(** ... and a store through the reference. *)
Definition GetValue_store (v : string) (p : t) : t :=
  {| base := base p; _value := v |}.

End OBPairData.

(** ** OBVirtualBond *)

Module OBVirtualBond.

Record t : Set :=
  mk { base : OBGenericData.t; _bgn : Z; _end : Z; _ord : Z; _stereo : Z }.

Definition GetBgn (b : t) : Z := _bgn b.
Definition GetEnd (b : t) : Z := _end b.
Definition GetOrder (b : t) : Z := _ord b.
Definition GetStereo (b : t) : Z := _stereo b.

End OBVirtualBond.

(** ** OBRingData *)

Module OBRingData.

Record t : Set := mk { base : OBGenericData.t; _vr : list OBRing_ptr }.

(** [void SetData(std::vector<OBRing*> &vr) { _vr = vr; }] *)
Definition SetData (vr : list OBRing_ptr) (d : t) : t :=
  {| base := base d; _vr := vr |}.

(** [void PushBack(OBRing *r) { _vr.push_back(r); }] *)
Definition PushBack (r : OBRing_ptr) (d : t) : t :=
  {| base := base d; _vr := _vr d ++ [r] |}.

(** [std::vector<OBRing*> &GetData()]: a read, and a store through the
    reference. *)
Definition GetData (d : t) : list OBRing_ptr := _vr d.

Definition GetData_store (vr : list OBRing_ptr) (d : t) : t :=
  {| base := base d; _vr := vr |}.

End OBRingData.

(** ** OBUnitCell *)

Module OBUnitCell.

Record t : Set := mk {
  base : OBGenericData.t;
  _a : double; _b : double; _c : double;
  _alpha : double; _beta : double; _gamma : double;
  _offset : vector3;
  _v1 : vector3; _v2 : vector3; _v3 : vector3;
  _spaceGroup : string
}.

(** [void SetData(const double a, const double b, const double c,
                  const double alpha, const double beta, const double gamma)
     { _a = a; _b = b; _c = c;
       _alpha = alpha; _beta = beta; _gamma = gamma; }] *)
Definition SetData (a b c alpha beta gamma : double) (u : t) : t :=
  {| base := base u;
     _a := a; _b := b; _c := c;
     _alpha := alpha; _beta := beta; _gamma := gamma;
     _offset := _offset u;
     _v1 := _v1 u; _v2 := _v2 u; _v3 := _v3 u;
     _spaceGroup := _spaceGroup u |}.

(** Modelled from the spec: the body of
    [void SetData(const vector3 v1, const vector3 v2, const vector3 v3)]
    (generic.h line 245) is not in src.  The spec has it take "three
    explicit translation vectors (from which a/b/c/alpha/beta/gamma could
    be derived but are not automatically recomputed by this setter)":
    the three vectors are stored and nothing else is written. *)
Definition SetData_vectors (v1 v2 v3 : vector3) (u : t) : t :=
  {| base := base u;
     _a := _a u; _b := _b u; _c := _c u;
     _alpha := _alpha u; _beta := _beta u; _gamma := _gamma u;
     _offset := _offset u;
     _v1 := v1; _v2 := v2; _v3 := v3;
     _spaceGroup := _spaceGroup u |}.

(** [void SetOffset(const vector3 v1) { _offset = v1; }] *)
Definition SetOffset (v1 : vector3) (u : t) : t :=
  {| base := base u;
     _a := _a u; _b := _b u; _c := _c u;
     _alpha := _alpha u; _beta := _beta u; _gamma := _gamma u;
     _offset := v1;
     _v1 := _v1 u; _v2 := _v2 u; _v3 := _v3 u;
     _spaceGroup := _spaceGroup u |}.

(** [void SetSpaceGroup(const std::string sg) { _spaceGroup = sg; }] *)
Definition SetSpaceGroup (sg : string) (u : t) : t :=
  {| base := base u;
     _a := _a u; _b := _b u; _c := _c u;
     _alpha := _alpha u; _beta := _beta u; _gamma := _gamma u;
     _offset := _offset u;
     _v1 := _v1 u; _v2 := _v2 u; _v3 := _v3 u;
     _spaceGroup := sg |}.

Definition GetA (u : t) : double := _a u.
Definition GetB (u : t) : double := _b u.
Definition GetC (u : t) : double := _c u.
Definition GetAlpha (u : t) : double := _alpha u.
Definition GetBeta (u : t) : double := _beta u.
Definition GetGamma (u : t) : double := _gamma u.
Definition GetOffset (u : t) : vector3 := _offset u.
Definition GetSpaceGroup (u : t) : string := _spaceGroup u.

(** The three translation vectors as the object holds them. *)
Definition translation_vectors (u : t) : vector3 * vector3 * vector3 :=
  (_v1 u, _v2 u, _v3 u).

(** The six scalar parameters as the object holds them. *)
Definition scalars (u : t) : list double :=
  [_a u; _b u; _c u; _alpha u; _beta u; _gamma u].

End OBUnitCell.

(** ** OBConformerData *)

Module OBConformerData.

Record t : Set := mk {
  base : OBGenericData.t;
  _vDimension : list N;
  _vEnergies : list double;
  _vForces : list (list vector3);
  _vVelocity : list (list vector3);
  _vDisplace : list (list vector3);
  _vData : list string
}.

Definition SetDimension (vd : list N) (d : t) : t :=
  {| base := base d; _vDimension := vd; _vEnergies := _vEnergies d;
     _vForces := _vForces d; _vVelocity := _vVelocity d;
     _vDisplace := _vDisplace d; _vData := _vData d |}.

Definition SetEnergies (ve : list double) (d : t) : t :=
  {| base := base d; _vDimension := _vDimension d; _vEnergies := ve;
     _vForces := _vForces d; _vVelocity := _vVelocity d;
     _vDisplace := _vDisplace d; _vData := _vData d |}.

Definition SetForces (vf : list (list vector3)) (d : t) : t :=
  {| base := base d; _vDimension := _vDimension d;
     _vEnergies := _vEnergies d;
     _vForces := vf; _vVelocity := _vVelocity d;
     _vDisplace := _vDisplace d; _vData := _vData d |}.

Definition SetVelocities (vv : list (list vector3)) (d : t) : t :=
  {| base := base d; _vDimension := _vDimension d;
     _vEnergies := _vEnergies d;
     _vForces := _vForces d; _vVelocity := vv;
     _vDisplace := _vDisplace d; _vData := _vData d |}.

Definition SetDisplacements (vd : list (list vector3)) (d : t) : t :=
  {| base := base d; _vDimension := _vDimension d;
     _vEnergies := _vEnergies d;
     _vForces := _vForces d; _vVelocity := _vVelocity d;
     _vDisplace := vd; _vData := _vData d |}.

Definition SetData (vdat : list string) (d : t) : t :=
  {| base := base d; _vDimension := _vDimension d;
     _vEnergies := _vEnergies d;
     _vForces := _vForces d; _vVelocity := _vVelocity d;
     _vDisplace := _vDisplace d; _vData := vdat |}.

Definition GetDimension (d : t) : list N := _vDimension d.
Definition GetEnergies (d : t) : list double := _vEnergies d.
Definition GetForces (d : t) : list (list vector3) := _vForces d.
Definition GetVelocities (d : t) : list (list vector3) := _vVelocity d.
Definition GetDisplacements (d : t) : list (list vector3) := _vDisplace d.
Definition GetData (d : t) : list string := _vData d.

End OBConformerData.

(** ** OBSymmetryData *)

Module OBSymmetryData.

Record t : Set :=
  mk { base : OBGenericData.t; _spaceGroup : string; _pointGroup : string }.

(** [void SetData(std::string pg, std::string sg = "")
     { _pointGroup = pg; _spaceGroup = sg; }] *)
Definition SetData (pg sg : string) (s : t) : t :=
  {| base := base s; _spaceGroup := sg; _pointGroup := pg |}.

Definition SetPointGroup (pg : string) (s : t) : t :=
  {| base := base s; _spaceGroup := _spaceGroup s; _pointGroup := pg |}.

Definition SetSpaceGroup (sg : string) (s : t) : t :=
  {| base := base s; _spaceGroup := sg; _pointGroup := _pointGroup s |}.

Definition GetPointGroup (s : t) : string := _pointGroup s.
Definition GetSpaceGroup (s : t) : string := _spaceGroup s.

End OBSymmetryData.

(** ** OBTorsion and OBTorsionData *)

Module OBTorsion.

Record t : Set := mk {
  _bc : OBAtom_ptr * OBAtom_ptr;
  _ads : list (triple OBAtom_ptr OBAtom_ptr double)
}.

(** [OBTorsion() { _bc.first=0; _bc.second=0; }]: the vector member is
    default-constructed, so it is empty. *)
Definition OBTorsion : t := {| _bc := (NULL, NULL); _ads := [] |}.

(** [bool Empty() { return(_bc.first == 0 && _bc.second == 0); }] *)
Definition Empty (t0 : t) : bool :=
  (fst (_bc t0) =? 0)%N && (snd (_bc t0) =? 0)%N.

(** [unsigned int GetSize() const { return (unsigned int)_ads.size(); }] *)
Definition GetSize (t0 : t) : Z :=
  to_unsigned_int (Z.of_nat (List.length (_ads t0))).

Definition GetBC (t0 : t) : OBAtom_ptr * OBAtom_ptr := _bc t0.

Definition GetADs (t0 : t) : list (triple OBAtom_ptr OBAtom_ptr double) :=
  _ads t0.

End OBTorsion.

Module OBTorsionData.

Record t : Set :=
  mk { base : OBGenericData.t; _torsions : list OBTorsion.t }.

Definition GetData (d : t) : list OBTorsion.t := _torsions d.

Definition GetSize (d : t) : Z :=
  to_unsigned_int (Z.of_nat (List.length (_torsions d))).

(** Modelled from the spec: the bodies of [void Clear()] and
    [void SetData(OBTorsion &torsion)] (generic.h lines 414 and 425) are
    not in src.  The spec has the collection "an ordered sequence" that
    is rebuilt by "Clear() then repeated SetData()" calls: [Clear]
    empties the sequence and [SetData] adds one torsion at its end. *)
Definition Clear (d : t) : t := {| base := base d; _torsions := [] |}.

Definition SetData (torsion : OBTorsion.t) (d : t) : t :=
  {| base := base d; _torsions := _torsions d ++ [torsion] |}.

End OBTorsionData.

(** ** OBAngle and OBAngleData *)

Module OBAngle.

Record t : Set := mk {
  _vertex : OBAtom_ptr;
  _termini : OBAtom_ptr * OBAtom_ptr;
  _radians : double
}.

Definition GetAngle (a : t) : double := _radians a.

(** [void SetAngle(double radians) { _radians = radians; }] *)
Definition SetAngle (radians : double) (a : t) : t :=
  {| _vertex := _vertex a; _termini := _termini a; _radians := radians |}.

End OBAngle.

Module OBAngleData.

Record t : Set := mk { base : OBGenericData.t; _angles : list OBAngle.t }.

Definition GetSize (d : t) : Z :=
  to_unsigned_int (Z.of_nat (List.length (_angles d))).

(** Modelled from the spec: the bodies of [void Clear()] and
    [void SetData(OBAngle &)] (generic.h lines 498 and 500) are not in
    src.  As for the torsions, the spec has the collection rebuilt by
    "Clear() then repeated SetData()" calls: [Clear] empties the sequence
    and [SetData] adds one angle at its end. *)
Definition Clear (d : t) : t := {| base := base d; _angles := [] |}.

Definition SetData (angle : OBAngle.t) (d : t) : t :=
  {| base := base d; _angles := _angles d ++ [angle] |}.

End OBAngleData.

(** ** Records derived from OBGenericData, and the calls that change them *)

(** An object of one of the ten classes of the header that derive from
    [OBGenericData]. *)
Inductive record : Set :=
| Comment (c : OBCommentData.t)
| ExternalBondData (e : OBExternalBondData.t)
| PairData (p : OBPairData.t)
| VirtualBond (b : OBVirtualBond.t)
| RingData (d : OBRingData.t)
| UnitCell (u : OBUnitCell.t)
| ConformerData (d : OBConformerData.t)
| SymmetryData (s : OBSymmetryData.t)
| TorsionData (d : OBTorsionData.t)
| AngleData (d : OBAngleData.t).

(** The [OBGenericData] sub-object of a record. *)
Definition base_of (r : record) : OBGenericData.t :=
  match r with
  | Comment c => OBCommentData.base c
  | ExternalBondData e => OBExternalBondData.base e
  | PairData p => OBPairData.base p
  | VirtualBond b => OBVirtualBond.base b
  | RingData d => OBRingData.base d
  | UnitCell u => OBUnitCell.base u
  | ConformerData d => OBConformerData.base d
  | SymmetryData s => OBSymmetryData.base s
  | TorsionData d => OBTorsionData.base d
  | AngleData d => OBAngleData.base d
  end.

(** The inherited, non-virtual [GetDataType()]. *)
Definition GetDataType (r : record) : obDataType :=
  OBGenericData.GetDataType (base_of r).

(** The inherited [GetAttribute()]. *)
Definition GetAttribute (r : record) : string :=
  OBGenericData.GetAttribute (base_of r).

(** The inherited [SetAttribute(v)]: it runs on the base sub-object and
    leaves the members of the derived class alone. *)
Definition SetAttribute (v : string) (r : record) : record :=
  match r with
  | Comment c =>
      Comment {| OBCommentData.base :=
                   OBGenericData.SetAttribute v (OBCommentData.base c);
                 OBCommentData._data := OBCommentData._data c |}
  | ExternalBondData e =>
      ExternalBondData
        {| OBExternalBondData.base :=
             OBGenericData.SetAttribute v (OBExternalBondData.base e);
           OBExternalBondData._vexbnd := OBExternalBondData._vexbnd e |}
  | PairData p =>
      PairData {| OBPairData.base :=
                    OBGenericData.SetAttribute v (OBPairData.base p);
                  OBPairData._value := OBPairData._value p |}
  | VirtualBond b =>
      VirtualBond
        {| OBVirtualBond.base :=
             OBGenericData.SetAttribute v (OBVirtualBond.base b);
           OBVirtualBond._bgn := OBVirtualBond._bgn b;
           OBVirtualBond._end := OBVirtualBond._end b;
           OBVirtualBond._ord := OBVirtualBond._ord b;
           OBVirtualBond._stereo := OBVirtualBond._stereo b |}
  | RingData d =>
      RingData {| OBRingData.base :=
                    OBGenericData.SetAttribute v (OBRingData.base d);
                  OBRingData._vr := OBRingData._vr d |}
  | UnitCell u =>
      UnitCell
        {| OBUnitCell.base :=
             OBGenericData.SetAttribute v (OBUnitCell.base u);
           OBUnitCell._a := OBUnitCell._a u;
           OBUnitCell._b := OBUnitCell._b u;
           OBUnitCell._c := OBUnitCell._c u;
           OBUnitCell._alpha := OBUnitCell._alpha u;
           OBUnitCell._beta := OBUnitCell._beta u;
           OBUnitCell._gamma := OBUnitCell._gamma u;
           OBUnitCell._offset := OBUnitCell._offset u;
           OBUnitCell._v1 := OBUnitCell._v1 u;
           OBUnitCell._v2 := OBUnitCell._v2 u;
           OBUnitCell._v3 := OBUnitCell._v3 u;
           OBUnitCell._spaceGroup := OBUnitCell._spaceGroup u |}
  | ConformerData d =>
      ConformerData
        {| OBConformerData.base :=
             OBGenericData.SetAttribute v (OBConformerData.base d);
           OBConformerData._vDimension := OBConformerData._vDimension d;
           OBConformerData._vEnergies := OBConformerData._vEnergies d;
           OBConformerData._vForces := OBConformerData._vForces d;
           OBConformerData._vVelocity := OBConformerData._vVelocity d;
           OBConformerData._vDisplace := OBConformerData._vDisplace d;
           OBConformerData._vData := OBConformerData._vData d |}
  | SymmetryData s =>
      SymmetryData
        {| OBSymmetryData.base :=
             OBGenericData.SetAttribute v (OBSymmetryData.base s);
           OBSymmetryData._spaceGroup := OBSymmetryData._spaceGroup s;
           OBSymmetryData._pointGroup := OBSymmetryData._pointGroup s |}
  | TorsionData d =>
      TorsionData
        {| OBTorsionData.base :=
             OBGenericData.SetAttribute v (OBTorsionData.base d);
           OBTorsionData._torsions := OBTorsionData._torsions d |}
  | AngleData d =>
      AngleData {| OBAngleData.base :=
                     OBGenericData.SetAttribute v (OBAngleData.base d);
                   OBAngleData._angles := OBAngleData._angles d |}
  end.

(** A call of a public member function that writes to the object, with
    its arguments: every such function whose body generic.h gives, and
    the stores through the references and the pointer that three
    accessors hand out. *)
Inductive mutator : Set :=
| call_SetAttribute (v : string)
| call_Comment_SetData (data : string)
| call_Comment_SetData_cstr (d : string)
| call_ExternalBond_GetData_store (v : list OBExternalBond.t)
| call_Pair_SetValue (v : string)
| call_Pair_SetValue_cstr (v : string)
| call_Pair_GetValue_store (v : string)
| call_Ring_SetData (vr : list OBRing_ptr)
| call_Ring_PushBack (r : OBRing_ptr)
| call_Ring_GetData_store (vr : list OBRing_ptr)
| call_UnitCell_SetData (a b c alpha beta gamma : double)
| call_UnitCell_SetOffset (v1 : vector3)
| call_UnitCell_SetSpaceGroup (sg : string)
| call_Conformer_SetDimension (vd : list N)
| call_Conformer_SetEnergies (ve : list double)
| call_Conformer_SetForces (vf : list (list vector3))
| call_Conformer_SetVelocities (vv : list (list vector3))
| call_Conformer_SetDisplacements (vd : list (list vector3))
| call_Conformer_SetData (vdat : list string)
| call_Symmetry_SetData (pg sg : string)
| call_Symmetry_SetPointGroup (pg : string)
| call_Symmetry_SetSpaceGroup (sg : string).

(** The object after the call; [None] when the class of the object has
    no such member, a call the compiler refuses. *)
Definition call (m : mutator) (r : record) : option record :=
  match m, r with
  | call_SetAttribute v, _ => Some (SetAttribute v r)
  | call_Comment_SetData data, Comment c =>
      Some (Comment (OBCommentData.SetData data c))
  | call_Comment_SetData_cstr d, Comment c =>
      Some (Comment (OBCommentData.SetData_cstr d c))
  | call_ExternalBond_GetData_store v, ExternalBondData e =>
      Some (ExternalBondData (OBExternalBondData.GetData_store v e))
  | call_Pair_SetValue v, PairData p =>
      Some (PairData (OBPairData.SetValue v p))
  | call_Pair_SetValue_cstr v, PairData p =>
      Some (PairData (OBPairData.SetValue_cstr v p))
  | call_Pair_GetValue_store v, PairData p =>
      Some (PairData (OBPairData.GetValue_store v p))
  | call_Ring_SetData vr, RingData d =>
      Some (RingData (OBRingData.SetData vr d))
  | call_Ring_PushBack x, RingData d =>
      Some (RingData (OBRingData.PushBack x d))
  | call_Ring_GetData_store vr, RingData d =>
      Some (RingData (OBRingData.GetData_store vr d))
  | call_UnitCell_SetData a b c alpha beta gamma, UnitCell u =>
      Some (UnitCell (OBUnitCell.SetData a b c alpha beta gamma u))
  | call_UnitCell_SetOffset v1, UnitCell u =>
      Some (UnitCell (OBUnitCell.SetOffset v1 u))
  | call_UnitCell_SetSpaceGroup sg, UnitCell u =>
      Some (UnitCell (OBUnitCell.SetSpaceGroup sg u))
  | call_Conformer_SetDimension vd, ConformerData d =>
      Some (ConformerData (OBConformerData.SetDimension vd d))
  | call_Conformer_SetEnergies ve, ConformerData d =>
      Some (ConformerData (OBConformerData.SetEnergies ve d))
  | call_Conformer_SetForces vf, ConformerData d =>
      Some (ConformerData (OBConformerData.SetForces vf d))
  | call_Conformer_SetVelocities vv, ConformerData d =>
      Some (ConformerData (OBConformerData.SetVelocities vv d))
  | call_Conformer_SetDisplacements vd, ConformerData d =>
      Some (ConformerData (OBConformerData.SetDisplacements vd d))
  | call_Conformer_SetData vdat, ConformerData d =>
      Some (ConformerData (OBConformerData.SetData vdat d))
  | call_Symmetry_SetData pg sg, SymmetryData s =>
      Some (SymmetryData (OBSymmetryData.SetData pg sg s))
  | call_Symmetry_SetPointGroup pg, SymmetryData s =>
      Some (SymmetryData (OBSymmetryData.SetPointGroup pg s))
  | call_Symmetry_SetSpaceGroup sg, SymmetryData s =>
      Some (SymmetryData (OBSymmetryData.SetSpaceGroup sg s))
  | _, _ => None
  end.

(** A sequence of calls on one object, stopped at the first call that
    does not compile. *)
Fixpoint run (ms : list mutator) (r : record) : option record :=
  match ms with
  | [] => Some r
  | m :: rest =>
      match call m r with
      | Some r' => run rest r'
      | None => None
      end
  end.

(** ** Every public operation that writes to a record *)










(** ** What a sequence of calls leaves in a member *)

(** The value of a member after the calls [ms], when [pick] tells which
    calls store into it and what they store, and [init] is its value
    before the first call. *)
Fixpoint last_written {A : Type} (pick : mutator -> option A)
    (ms : list mutator) (init : A) : A :=
  match ms with
  | [] => init
  | m :: rest =>
      last_written pick rest
        (match pick m with Some a => a | None => init end)
  end.

Definition is_SetAttribute (m : mutator) : bool :=
  match m with call_SetAttribute _ => true | _ => false end.

(** [_attr] is assigned by [SetAttribute] alone. *)
Definition writes_attr (m : mutator) : option string :=
  match m with call_SetAttribute v => Some v | _ => None end.

(** The members of [OBUnitCell] and the inline functions that assign them. *)
Definition writes_scalars (m : mutator) : option (list double) :=
  match m with
  | call_UnitCell_SetData a b c alpha beta gamma =>
      Some [a; b; c; alpha; beta; gamma]
  | _ => None
  end.

Definition writes_offset (m : mutator) : option vector3 :=
  match m with call_UnitCell_SetOffset v1 => Some v1 | _ => None end.

Definition writes_cell_group (m : mutator) : option string :=
  match m with call_UnitCell_SetSpaceGroup sg => Some sg | _ => None end.

(** The members of [OBConformerData] and the functions that assign them. *)
Definition writes_dimension (m : mutator) : option (list N) :=
  match m with call_Conformer_SetDimension vd => Some vd | _ => None end.

Definition writes_energies (m : mutator) : option (list double) :=
  match m with call_Conformer_SetEnergies ve => Some ve | _ => None end.

Definition writes_forces (m : mutator) : option (list (list vector3)) :=
  match m with call_Conformer_SetForces vf => Some vf | _ => None end.

Definition writes_velocities (m : mutator) : option (list (list vector3)) :=
  match m with call_Conformer_SetVelocities vv => Some vv | _ => None end.

Definition writes_displacements (m : mutator)
  : option (list (list vector3)) :=
  match m with call_Conformer_SetDisplacements vd => Some vd | _ => None end.

Definition writes_annotations (m : mutator) : option (list string) :=
  match m with call_Conformer_SetData vdat => Some vdat | _ => None end.

(** [OBPairData::_value] has three writers: the two overloads of
    [SetValue] and a store through the reference from [GetValue()]. *)
Definition writes_value (m : mutator) : option string :=
  match m with
  | call_Pair_SetValue v => Some v
  | call_Pair_SetValue_cstr v => Some v
  | call_Pair_GetValue_store v => Some v
  | _ => None
  end.

(** ** Filling in an OBExternalBond *)

(** [OBExternalBond() {}] assigns no member; the three setters do. *)
Inductive bond_setter : Set :=
| call_SetIdx (idx : Z)
| call_SetAtom (atom : OBAtom_ptr)
| call_SetBond (bond : OBBond_ptr).

Definition set_member (s : bond_setter) (e : OBExternalBond.t)
  : OBExternalBond.t :=
  match s with
  | call_SetIdx idx => OBExternalBond.SetIdx idx e
  | call_SetAtom atom => OBExternalBond.SetAtom atom e
  | call_SetBond bond => OBExternalBond.SetBond bond e
  end.

Fixpoint set_members (ss : list bond_setter) (e : OBExternalBond.t)
  : OBExternalBond.t :=
  match ss with
  | [] => e
  | s :: rest => set_members rest (set_member s e)
  end.

Definition sets_idx (s : bond_setter) : bool :=
  match s with call_SetIdx _ => true | _ => false end.
Definition sets_atom (s : bond_setter) : bool :=
  match s with call_SetAtom _ => true | _ => false end.
Definition sets_bond (s : bond_setter) : bool :=
  match s with call_SetBond _ => true | _ => false end.

(** * Properties *)

(** ** Trim and OBCommentData *)

Lemma append_assoc (s1 s2 s3 : string) : (s1 ++ s2) ++ s3 = s1 ++ (s2 ++ s3).
Proof.
  induction s1 as [|c s1 IH]; simpl; [reflexivity | now rewrite IH].
Qed.

(** What [rtrim] cuts off the end is whitespace. *)
Lemma rtrim_split (s : string) :
  exists post, s = rtrim s ++ post /\ all_space post = true.
Proof.
  induction s as [|c rest [post [Hsplit Hpost]]]; simpl.
  - exists EmptyString. split; reflexivity.
  - destruct (rtrim rest) as [|c' kept] eqn:Hkept.
    + simpl in Hsplit. subst post.
      destruct (isspace c) eqn:Hc.
      * exists (String c rest). simpl. rewrite Hc, Hpost. split; reflexivity.
      * exists rest. split; [reflexivity | assumption].
    + exists post. simpl. split; [ | assumption].
      f_equal. exact Hsplit.
Qed.

(** What [ltrim] cuts off the start is whitespace. *)
Lemma ltrim_split (s : string) :
  exists pre, s = pre ++ ltrim s /\ all_space pre = true.
Proof.
  induction s as [|c rest [pre [Hsplit Hpre]]]; simpl.
  - exists EmptyString. split; reflexivity.
  - destruct (isspace c) eqn:Hc.
    + exists (String c pre). simpl. rewrite Hc, Hpre. split; [ | reflexivity].
      f_equal. exact Hsplit.
    + exists EmptyString. split; reflexivity.
Qed.

Lemma front_ltrim (s : string) :
  option_map isspace (front (ltrim s)) <> Some true.
Proof.
  induction s as [|c rest IH]; simpl; [discriminate | ].
  destruct (isspace c) eqn:Hc; [exact IH | ].
  simpl. rewrite Hc. discriminate.
Qed.

Lemma back_rtrim (s : string) :
  option_map isspace (back (rtrim s)) <> Some true.
Proof.
  induction s as [|c rest IH]; simpl; [discriminate | ].
  destruct (rtrim rest) as [|c' kept] eqn:Hkept.
  - destruct (isspace c) eqn:Hc; simpl; [ | rewrite Hc]; discriminate.
  - exact IH.
Qed.

(** [ltrim] keeps the end of the text: the last character of a
    non-empty result is the last character of the text. *)
Lemma back_ltrim (s : string) (c : ascii) :
  back (ltrim s) = Some c -> back s = Some c.
Proof.
  induction s as [|c0 rest IH]; simpl; [trivial | ].
  destruct (isspace c0).
  - intros H. specialize (IH H).
    destruct rest; [discriminate IH | exact IH].
  - trivial.
Qed.

Lemma Trim_split (s : string) :
  exists pre post,
    s = pre ++ Trim s ++ post /\ all_space pre = true /\ all_space post = true.
Proof.
  destruct (rtrim_split s) as [post [Hs Hpost]].
  destruct (ltrim_split (rtrim s)) as [pre [Hr Hpre]].
  exists pre, post. unfold Trim. repeat split; try assumption.
  rewrite <- append_assoc, <- Hr. exact Hs.
Qed.

Lemma Trim_front (s : string) :
  option_map isspace (front (Trim s)) <> Some true.
Proof. apply front_ltrim. Qed.

Lemma Trim_back (s : string) :
  option_map isspace (back (Trim s)) <> Some true.
Proof.
  unfold Trim.
  destruct (back (ltrim (rtrim s))) as [c|] eqn:Hb; [ | discriminate].
  apply back_ltrim in Hb.
  pose proof (back_rtrim s) as Hr. rewrite Hb in Hr. exact Hr.
Qed.

(** Whitespace inside the text stays, a text of whitespace only becomes
    empty, and a trimmed text is not changed by trimming it again. *)
Example Trim_keeps_inner_space : Trim "  a b  " = "a b".
Proof. reflexivity. Qed.

Example Trim_all_space : Trim ("   " ++ String LF EmptyString) = EmptyString.
Proof. reflexivity. Qed.

Lemma ltrim_fixed (s : string) :
  option_map isspace (front s) <> Some true -> ltrim s = s.
Proof.
  destruct s as [|c rest]; simpl; [reflexivity | ].
  destruct (isspace c); [intros H; now elim H | reflexivity].
Qed.

Lemma rtrim_fixed (s : string) :
  option_map isspace (back s) <> Some true -> rtrim s = s.
Proof.
  induction s as [|c rest IH]; simpl; [reflexivity | ].
  destruct rest as [|c' rest'].
  - simpl. destruct (isspace c); [intros H; now elim H | reflexivity].
  - intros H. rewrite (IH H). reflexivity.
Qed.

Lemma Trim_idempotent (s : string) : Trim (Trim s) = Trim s.
Proof.
  unfold Trim at 1.
  rewrite (rtrim_fixed _ (Trim_back s)).
  apply ltrim_fixed, Trim_front.
Qed.

(** C7: after [SetData(s)], through either overload, [GetData()] is [s]
    without its leading and trailing whitespace: [s] is the stored text
    between two runs of whitespace, and the stored text neither starts
    nor ends with whitespace.  In particular SetData(" hi \n") stores
    "hi". *)
Theorem SetData_trims (s : string) (c : OBCommentData.t) :
  let stored := OBCommentData.GetData (OBCommentData.SetData s c) in
  (exists pre post,
      s = pre ++ stored ++ post
      /\ all_space pre = true /\ all_space post = true)
  /\ option_map isspace (front stored) <> Some true
  /\ option_map isspace (back stored) <> Some true
  /\ OBCommentData.GetData (OBCommentData.SetData_cstr s c) = stored
  /\ OBCommentData.GetData
       (OBCommentData.SetData (" hi " ++ String LF EmptyString) c) = "hi".
Proof.
  cbv zeta. unfold OBCommentData.GetData, OBCommentData.SetData,
    OBCommentData.SetData_cstr, OBCommentData.trim_data,
    OBCommentData.assign_data. cbn [OBCommentData._data].
  split; [apply Trim_split | ].
  split; [apply Trim_front | ].
  split; [apply Trim_back | ].
  split; reflexivity.
Qed.

(** ** OBUnitCell *)

(** C10: the six-scalar [SetData] is a total function with no check on
    its arguments, and each of the six getters then returns the double
    that was passed, whatever its value. *)
Theorem SetData_then_getters (a b c alpha beta gamma : double)
    (u : OBUnitCell.t) :
  let u' := OBUnitCell.SetData a b c alpha beta gamma u in
  OBUnitCell.GetA u' = a
  /\ OBUnitCell.GetB u' = b
  /\ OBUnitCell.GetC u' = c
  /\ OBUnitCell.GetAlpha u' = alpha
  /\ OBUnitCell.GetBeta u' = beta
  /\ OBUnitCell.GetGamma u' = gamma.
Proof.
  cbv zeta. repeat split.
Qed.

(** A zero length, a negative length, an infinite angle and a NaN are
    stored like any other double. *)
Example SetData_keeps_degenerate_values (u : OBUnitCell.t) :
  OBUnitCell.scalars
    (OBUnitCell.SetData 0 (-1) 5 infinity nan (-90) u)%float
  = [0; -1; 5; infinity; nan; -90]%float.
Proof. reflexivity. Qed.

(** C4: the six-scalar [SetData] writes the six scalars and leaves the
    translation vectors, the offset, the space group and the base
    sub-object as they were; the three-vector [SetData] writes the
    three vectors and leaves the six scalars, the offset, the space
    group and the base sub-object as they were. *)
Theorem SetData_does_not_synchronize
    (a b c alpha beta gamma : double) (v1 v2 v3 : vector3)
    (u : OBUnitCell.t) :
  let s := OBUnitCell.SetData a b c alpha beta gamma u in
  let w := OBUnitCell.SetData_vectors v1 v2 v3 u in
  (OBUnitCell.scalars s = [a; b; c; alpha; beta; gamma]
   /\ OBUnitCell.translation_vectors s = OBUnitCell.translation_vectors u
   /\ OBUnitCell.GetOffset s = OBUnitCell.GetOffset u
   /\ OBUnitCell.GetSpaceGroup s = OBUnitCell.GetSpaceGroup u
   /\ OBUnitCell.base s = OBUnitCell.base u)
  /\
  (OBUnitCell.translation_vectors w = (v1, v2, v3)
   /\ OBUnitCell.scalars w = OBUnitCell.scalars u
   /\ OBUnitCell.GetOffset w = OBUnitCell.GetOffset u
   /\ OBUnitCell.GetSpaceGroup w = OBUnitCell.GetSpaceGroup u
   /\ OBUnitCell.base w = OBUnitCell.base u).
Proof.
  cbv zeta. repeat split.
Qed.

(** ** OBTorsion *)

Lemma Empty_true_iff (t0 : OBTorsion.t) :
  OBTorsion.Empty t0 = true
  <-> fst (OBTorsion.GetBC t0) = NULL /\ snd (OBTorsion.GetBC t0) = NULL.
Proof.
  unfold OBTorsion.Empty, OBTorsion.GetBC, NULL.
  rewrite andb_true_iff, !N.eqb_eq. reflexivity.
Qed.

(** C9: [Empty()] is true exactly when both members of the pair that
    [GetBC()] returns are null, and the default constructor leaves a
    torsion with two null central atoms, which is therefore empty. *)
Theorem Empty_iff_central_pair_null :
  (forall t0 : OBTorsion.t,
      OBTorsion.Empty t0 = true
      <-> fst (OBTorsion.GetBC t0) = NULL
          /\ snd (OBTorsion.GetBC t0) = NULL)
  /\ OBTorsion.GetBC OBTorsion.OBTorsion = (NULL, NULL)
  /\ OBTorsion.Empty OBTorsion.OBTorsion = true.
Proof.
  split; [exact Empty_true_iff | split; reflexivity].
Qed.

(** One null central atom is not enough. *)
Example Empty_needs_both_null :
  OBTorsion.Empty {| OBTorsion._bc := (NULL, 7%N); OBTorsion._ads := [] |}
  = false
  /\ OBTorsion.Empty {| OBTorsion._bc := (7%N, NULL); OBTorsion._ads := [] |}
     = false.
Proof. split; reflexivity. Qed.

(** ** The kind tag *)

Lemma SetAttribute_GetDataType (v : string) (r : record) :
  GetDataType (SetAttribute v r) = GetDataType r.
Proof. destruct r; reflexivity. Qed.

(** One call leaves the kind tag as it was. *)
Lemma call_GetDataType (m : mutator) (r r' : record) :
  call m r = Some r' -> GetDataType r' = GetDataType r.
Proof.
  destruct m; try (intros [= <-]; apply SetAttribute_GetDataType);
    destruct r; simpl; intros H; try discriminate H;
    injection H as <-; reflexivity.
Qed.

(** Any sequence of inline calls leaves the kind tag as it was. *)
Lemma run_GetDataType (ms : list mutator) (r r' : record) :
  run ms r = Some r' -> GetDataType r' = GetDataType r.
Proof.
  revert r. induction ms as [|m rest IH]; simpl; intros r H.
  - injection H as <-. reflexivity.
  - destruct (call m r) as [r1|] eqn:Hcall; [ | discriminate H].
    rewrite (IH _ H). exact (call_GetDataType _ _ _ Hcall).
Qed.







(** ** The attribute tag *)

(** One call: the attribute is the argument of [SetAttribute], and any
    other call leaves it. *)
Lemma call_GetAttribute (m : mutator) (r r' : record) :
  call m r = Some r' ->
  GetAttribute r' =
    match writes_attr m with Some v => v | None => GetAttribute r end.
Proof.
  destruct m; destruct r; simpl; intros H; try discriminate H;
    injection H as <-; reflexivity.
Qed.

(** After any sequence of calls of the member functions that the
    header defines inline (the calls of [mutator]), on a record of any
    of the ten classes, [GetAttribute()] returns the argument of the
    last [SetAttribute] of the sequence, and what it returned before
    when there is none: none of the inline setters of the derived
    classes writes the attribute. *)
Theorem GetAttribute_last_SetAttribute (ms : list mutator) (r r' : record) :
  run ms r = Some r' ->
  GetAttribute r' = last_written writes_attr ms (GetAttribute r).
Proof.
  revert r. induction ms as [|m rest IH]; simpl; intros r H.
  - injection H as <-. reflexivity.
  - destruct (call m r) as [r1|] eqn:Hcall; [ | discriminate H].
    rewrite (IH _ H). f_equal. exact (call_GetAttribute _ _ _ Hcall).
Qed.

Lemma GetAttribute_last_SetAttribute_witness :
  let kind := {| OBGenericData._attr := "PairData";
                 OBGenericData._type := obPairData |} in
  let p := PairData {| OBPairData.base := kind;
                       OBPairData._value := "1.5" |} in
  let p' := PairData {| OBPairData.base :=
                          OBGenericData.SetAttribute "Total energy" kind;
                        OBPairData._value := "3" |} in
  let ms := [call_SetAttribute "Energy"; call_Pair_SetValue "2.5";
             call_SetAttribute "Total energy"; call_Pair_SetValue_cstr "3"] in
  run ms p = Some p' /\ GetAttribute p' = "Total energy".
Proof.
  cbv zeta. split; [reflexivity | ].
  exact (GetAttribute_last_SetAttribute
           [call_SetAttribute "Energy"; call_Pair_SetValue "2.5";
            call_SetAttribute "Total energy"; call_Pair_SetValue_cstr "3"]
           (PairData {| OBPairData.base :=
                          {| OBGenericData._attr := "PairData";
                             OBGenericData._type := obPairData |};
                        OBPairData._value := "1.5" |})
           _ eq_refl).
Defined.

(** Renaming a record and changing its data through the member
    functions that the header defines inline are independent: an inline
    call other than [SetAttribute] gives the same object whether
    [SetAttribute(v)] runs before it or after it, and it is refused after
    the renaming exactly when it is refused before. *)
Theorem SetAttribute_commutes (m : mutator) (v : string) (r : record) :
  is_SetAttribute m = false ->
  call m (SetAttribute v r) = option_map (SetAttribute v) (call m r).
Proof.
  destruct m; simpl; intros Hm; try discriminate Hm;
    destruct r; reflexivity.
Qed.

Lemma SetAttribute_commutes_witness :
  let d := RingData {| OBRingData.base :=
                         {| OBGenericData._attr := "RingData";
                            OBGenericData._type := obRingData |};
                       OBRingData._vr := [4%N] |} in
  call (call_Ring_PushBack 8%N) (SetAttribute "SSSR" d)
  = option_map (SetAttribute "SSSR") (call (call_Ring_PushBack 8%N) d).
Proof.
  cbv zeta.
  apply (SetAttribute_commutes (call_Ring_PushBack 8%N)). reflexivity.
Defined.

(** ** OBUnitCell: the inline setters write disjoint members *)

(** The four functions that the header defines inline for a unit cell
    ([SetAttribute], the six-scalar [SetData], [SetOffset] and
    [SetSpaceGroup]; [run] refuses every other call on a unit cell)
    write disjoint members.  After any sequence of calls of these four,
    the six scalars are the arguments of the last six-scalar [SetData],
    the offset is the argument of the last [SetOffset] and the space
    group that of the last [SetSpaceGroup] (each as before the sequence
    when no such call is in it), and the three translation vectors are
    as before: none of the four assigns them.  The three-vector
    [SetData], which the header only declares, is not one of the
    calls. *)
Theorem UnitCell_members_after_calls (ms : list mutator)
    (u : OBUnitCell.t) (r' : record) :
  run ms (UnitCell u) = Some r' ->
  exists u',
    r' = UnitCell u'
    /\ OBUnitCell.scalars u'
       = last_written writes_scalars ms (OBUnitCell.scalars u)
    /\ OBUnitCell.GetOffset u'
       = last_written writes_offset ms (OBUnitCell.GetOffset u)
    /\ OBUnitCell.GetSpaceGroup u'
       = last_written writes_cell_group ms (OBUnitCell.GetSpaceGroup u)
    /\ OBUnitCell.translation_vectors u' = OBUnitCell.translation_vectors u.
Proof.
  revert u. induction ms as [|m rest IH]; simpl; intros u H.
  - injection H as <-. exists u. repeat split.
  - destruct m; simpl in H; try discriminate H;
      destruct (IH _ H) as (u' & -> & Hs & Ho & Hg & Hv);
      exists u'; repeat split; assumption.
Qed.

Lemma UnitCell_members_after_calls_witness :
  let u := {| OBUnitCell.base :=
                {| OBGenericData._attr := "UnitCell";
                   OBGenericData._type := obUnitCell |};
              OBUnitCell._a := 1; OBUnitCell._b := 1; OBUnitCell._c := 1;
              OBUnitCell._alpha := 90; OBUnitCell._beta := 90;
              OBUnitCell._gamma := 90;
              OBUnitCell._offset := mk_vector3 0 0 0;
              OBUnitCell._v1 := mk_vector3 1 0 0;
              OBUnitCell._v2 := mk_vector3 0 1 0;
              OBUnitCell._v3 := mk_vector3 0 0 1;
              OBUnitCell._spaceGroup := "P1" |}%float in
  let ms := [call_UnitCell_SetData 2 3 4 90 100 90;
             call_UnitCell_SetSpaceGroup "P21/c";
             call_UnitCell_SetData 5 6 7 90 110 90;
             call_SetAttribute "Cell"]%float in
  exists u',
    run ms (UnitCell u) = Some (UnitCell u')
    /\ OBUnitCell.scalars u' = [5; 6; 7; 90; 110; 90]%float
    /\ OBUnitCell.GetOffset u' = (mk_vector3 0 0 0)%float
    /\ OBUnitCell.GetSpaceGroup u' = "P21/c"
    /\ OBUnitCell.translation_vectors u' = OBUnitCell.translation_vectors u.
Proof.
  cbv zeta.
  match goal with
  | |- exists u', run ?ms (UnitCell ?u) = Some _ /\ _ =>
      destruct (UnitCell_members_after_calls ms u _ eq_refl)
        as (u' & Hr & Hs & Ho & Hg & Hv)
  end.
  exists u'. split; [rewrite <- Hr; reflexivity | ].
  repeat split; assumption.
Defined.

(** ** OBConformerData: six independent sequences *)

(** After any sequence of calls on a conformer record, each of the six
    getters returns the argument of the last call of its own setter, or
    what it returned before the sequence when that setter was not
    called: a setter replaces its sequence whole and touches no other,
    whatever the lengths of the sequences are. *)
Theorem Conformer_members_after_calls (ms : list mutator)
    (d : OBConformerData.t) (r' : record) :
  run ms (ConformerData d) = Some r' ->
  exists d',
    r' = ConformerData d'
    /\ OBConformerData.GetDimension d'
       = last_written writes_dimension ms (OBConformerData.GetDimension d)
    /\ OBConformerData.GetEnergies d'
       = last_written writes_energies ms (OBConformerData.GetEnergies d)
    /\ OBConformerData.GetForces d'
       = last_written writes_forces ms (OBConformerData.GetForces d)
    /\ OBConformerData.GetVelocities d'
       = last_written writes_velocities ms (OBConformerData.GetVelocities d)
    /\ OBConformerData.GetDisplacements d'
       = last_written writes_displacements ms
           (OBConformerData.GetDisplacements d)
    /\ OBConformerData.GetData d'
       = last_written writes_annotations ms (OBConformerData.GetData d).
Proof.
  revert d. induction ms as [|m rest IH]; simpl; intros d H.
  - injection H as <-. exists d. repeat split.
  - destruct m; simpl in H; try discriminate H;
      destruct (IH _ H) as (d' & -> & H1 & H2 & H3 & H4 & H5 & H6);
      exists d'; repeat split; assumption.
Qed.

Lemma Conformer_members_after_calls_witness :
  let d := {| OBConformerData.base :=
                {| OBGenericData._attr := "Conformers";
                   OBGenericData._type := obConformerData |};
              OBConformerData._vDimension := [3%N];
              OBConformerData._vEnergies := [];
              OBConformerData._vForces := [];
              OBConformerData._vVelocity := [];
              OBConformerData._vDisplace := [];
              OBConformerData._vData := [] |} in
  let ms := [call_Conformer_SetEnergies [1; 2]%float;
             call_Conformer_SetData ["first"];
             call_Conformer_SetEnergies [4; 5; 6]%float] in
  exists d',
    run ms (ConformerData d) = Some (ConformerData d')
    /\ OBConformerData.GetDimension d' = [3%N]
    /\ OBConformerData.GetEnergies d' = [4; 5; 6]%float
    /\ OBConformerData.GetData d' = ["first"].
Proof.
  cbv zeta.
  match goal with
  | |- exists d', run ?ms (ConformerData ?d) = Some _ /\ _ =>
      destruct (Conformer_members_after_calls ms d _ eq_refl)
        as (d' & Hr & H1 & H2 & _ & _ & _ & H6)
  end.
  exists d'. split; [rewrite <- Hr; reflexivity | ].
  repeat split; assumption.
Defined.

(** ** OBPairData: the value is kept as written *)

(** After any sequence of calls on a key/value record, [GetValue()]
    returns, character for character, the text of the last write (by
    either overload of [SetValue] or through the reference that
    [GetValue()] returned), or the old value when nothing was written. *)
Theorem Pair_value_after_calls (ms : list mutator) (p : OBPairData.t)
    (r' : record) :
  run ms (PairData p) = Some r' ->
  exists p',
    r' = PairData p'
    /\ OBPairData.GetValue p'
       = last_written writes_value ms (OBPairData.GetValue p).
Proof.
  revert p. induction ms as [|m rest IH]; simpl; intros p H.
  - injection H as <-. exists p. split; reflexivity.
  - destruct m; simpl in H; try discriminate H;
      destruct (IH _ H) as (p' & -> & Hv);
      exists p'; split; trivial.
Qed.

Lemma Pair_value_after_calls_witness :
  let p := {| OBPairData.base :=
                {| OBGenericData._attr := "Author";
                   OBGenericData._type := obPairData |};
              OBPairData._value := EmptyString |} in
  let ms := [call_Pair_SetValue "a"; call_SetAttribute "Name";
             call_Pair_SetValue_cstr "  padded  "] in
  exists p',
    run ms (PairData p) = Some (PairData p')
    /\ OBPairData.GetValue p' = "  padded  ".
Proof.
  cbv zeta.
  match goal with
  | |- exists p', run ?ms (PairData ?p) = Some _ /\ _ =>
      destruct (Pair_value_after_calls ms p _ eq_refl) as (p' & Hr & Hv)
  end.
  exists p'. split; [rewrite <- Hr; reflexivity | exact Hv].
Defined.

(** ** OBSymmetryData *)

(** [SetData(pg, sg)] is [SetPointGroup(pg)] and [SetSpaceGroup(sg)], in
    either order.  Called with the point group alone, the default
    argument makes it store the empty space group, so it erases a space
    group set before, which [SetPointGroup(pg)] keeps. *)
Theorem Symmetry_SetData_is_both_setters (pg sg : string)
    (s : OBSymmetryData.t) :
  OBSymmetryData.SetData pg sg s
  = OBSymmetryData.SetSpaceGroup sg (OBSymmetryData.SetPointGroup pg s)
  /\ OBSymmetryData.SetData pg sg s
     = OBSymmetryData.SetPointGroup pg (OBSymmetryData.SetSpaceGroup sg s)
  /\ OBSymmetryData.GetSpaceGroup (OBSymmetryData.SetData pg EmptyString s)
     = EmptyString
  /\ OBSymmetryData.GetSpaceGroup (OBSymmetryData.SetPointGroup pg s)
     = OBSymmetryData.GetSpaceGroup s.
Proof.
  repeat split.
Qed.

(** ** OBRingData: rings are kept in the order they were pushed *)

Lemma run_PushBack (rs : list OBRing_ptr) (d : OBRingData.t) :
  run (map call_Ring_PushBack rs) (RingData d)
  = Some (RingData {| OBRingData.base := OBRingData.base d;
                      OBRingData._vr := (OBRingData._vr d ++ rs)%list |}).
Proof.
  revert d. induction rs as [|r rest IH]; intros d; simpl.
  - rewrite app_nil_r. destruct d; reflexivity.
  - rewrite IH. unfold OBRingData.PushBack. simpl.
    rewrite <- app_assoc. reflexivity.
Qed.

(** Pushing the rings [rs] one after the other onto a ring record leaves
    [GetData()] equal to the old rings followed by [rs], in order and
    with repetitions; after [SetData(vr)] the old rings are gone and
    [GetData()] is [vr] followed by [rs]. *)
Theorem Ring_PushBack_appends (vr rs : list OBRing_ptr) (d : OBRingData.t) :
  (exists d',
      run (map call_Ring_PushBack rs) (RingData d) = Some (RingData d')
      /\ OBRingData.GetData d' = (OBRingData.GetData d ++ rs)%list)
  /\ (exists d',
         run (call_Ring_SetData vr :: map call_Ring_PushBack rs) (RingData d)
         = Some (RingData d')
         /\ OBRingData.GetData d' = (vr ++ rs)%list
         /\ List.length (OBRingData.GetData d')
            = List.length vr + List.length rs).
Proof.
  split.
  - eexists. split; [apply run_PushBack | reflexivity].
  - eexists. split; [simpl; apply run_PushBack | ].
    simpl. split; [reflexivity | apply length_app].
Qed.

(** ** OBExternalBond: the setters fill in every member *)

(** Two objects on which the same setters run end equal as soon as
    every member is either set by one of the calls or equal from the
    start. *)
Lemma set_members_agree (ss : list bond_setter) (e1 e2 : OBExternalBond.t) :
  existsb sets_idx ss = true
    \/ OBExternalBond.GetIdx e1 = OBExternalBond.GetIdx e2 ->
  existsb sets_atom ss = true
    \/ OBExternalBond.GetAtom e1 = OBExternalBond.GetAtom e2 ->
  existsb sets_bond ss = true
    \/ OBExternalBond.GetBond e1 = OBExternalBond.GetBond e2 ->
  set_members ss e1 = set_members ss e2.
Proof.
  revert e1 e2. induction ss as [|s rest IH]; simpl; intros e1 e2 Hi Ha Hb.
  - destruct e1, e2; simpl in *.
    destruct Hi as [Hi|Hi]; [discriminate Hi | ].
    destruct Ha as [Ha|Ha]; [discriminate Ha | ].
    destruct Hb as [Hb|Hb]; [discriminate Hb | ].
    congruence.
  - apply IH; destruct s; simpl in *; auto.
Qed.

(** The default constructor [OBExternalBond() {}] assigns no member.
    Once a sequence of setter calls has called [SetIdx], [SetAtom] and
    [SetBond] at least once each, in any order and any number of times,
    the object no longer depends on what it held before. *)
Theorem ExternalBond_setters_initialize (ss : list bond_setter)
    (e1 e2 : OBExternalBond.t) :
  existsb sets_idx ss = true ->
  existsb sets_atom ss = true ->
  existsb sets_bond ss = true ->
  set_members ss e1 = set_members ss e2.
Proof.
  intros Hi Ha Hb. apply set_members_agree; left; assumption.
Qed.

Lemma ExternalBond_setters_initialize_witness :
  let ss := [call_SetBond 12%N; call_SetIdx 1%Z; call_SetAtom 7%N;
             call_SetIdx 2%Z] in
  set_members ss {| OBExternalBond._idx := (-5)%Z;
                    OBExternalBond._atom := 99%N;
                    OBExternalBond._bond := NULL |}
  = set_members ss {| OBExternalBond._idx := 0%Z;
                      OBExternalBond._atom := NULL;
                      OBExternalBond._bond := 3%N |}.
Proof.
  cbv zeta.
  apply (ExternalBond_setters_initialize
           [call_SetBond 12%N; call_SetIdx 1%Z; call_SetAtom 7%N;
            call_SetIdx 2%Z]); reflexivity.
Defined.

(** A member that no call sets keeps the garbage it had: with [SetIdx]
    and [SetAtom] only, two objects that differ in [_bond] still differ. *)
Example ExternalBond_unset_member_stays :
  OBExternalBond.GetBond
    (set_members [call_SetIdx 1%Z; call_SetAtom 7%N]
       {| OBExternalBond._idx := 0%Z; OBExternalBond._atom := NULL;
          OBExternalBond._bond := 3%N |}) = 3%N.
Proof. reflexivity. Qed.

(** ** GetSize: the cast to unsigned int *)

Lemma to_unsigned_int_small (n : nat) :
  (Z.of_nat n < 2 ^ 32)%Z -> to_unsigned_int (Z.of_nat n) = Z.of_nat n.
Proof.
  intros H. unfold to_unsigned_int. apply Z.mod_small. lia.
Qed.

(** The three [GetSize()] of the header cast the length of a vector to
    [unsigned int]: as long as the vector holds fewer than 2^32
    elements, the result is the number of distal triples of a torsion,
    of torsions of a torsion record and of angles of an angle record. *)
Theorem GetSize_counts (t0 : OBTorsion.t) (td : OBTorsionData.t)
    (ad : OBAngleData.t) :
  (Z.of_nat (List.length (OBTorsion.GetADs t0)) < 2 ^ 32)%Z ->
  (Z.of_nat (List.length (OBTorsionData.GetData td)) < 2 ^ 32)%Z ->
  (Z.of_nat (List.length (OBAngleData._angles ad)) < 2 ^ 32)%Z ->
  OBTorsion.GetSize t0 = Z.of_nat (List.length (OBTorsion.GetADs t0))
  /\ OBTorsionData.GetSize td
     = Z.of_nat (List.length (OBTorsionData.GetData td))
  /\ OBAngleData.GetSize ad = Z.of_nat (List.length (OBAngleData._angles ad)).
Proof.
  intros H1 H2 H3.
  unfold OBTorsion.GetSize, OBTorsionData.GetSize, OBAngleData.GetSize.
  repeat split; apply to_unsigned_int_small; assumption.
Qed.

Lemma GetSize_counts_witness :
  let t0 := {| OBTorsion._bc := (5%N, 6%N);
               OBTorsion._ads := [mk_triple 4%N 7%N 0%float;
                                  mk_triple 3%N 8%N 0%float] |} in
  let kind k := {| OBGenericData._attr := EmptyString;
                   OBGenericData._type := k |} in
  let td := {| OBTorsionData.base := kind obTorsionData;
               OBTorsionData._torsions := [t0] |} in
  let ad := {| OBAngleData.base := kind obAngleData;
               OBAngleData._angles := [] |} in
  OBTorsion.GetSize t0 = 2%Z
  /\ OBTorsionData.GetSize td = 1%Z
  /\ OBAngleData.GetSize ad = 0%Z.
Proof.
  cbv zeta.
  refine (GetSize_counts
            {| OBTorsion._bc := (5%N, 6%N);
               OBTorsion._ads := [mk_triple 4%N 7%N 0%float;
                                  mk_triple 3%N 8%N 0%float] |}
            {| OBTorsionData.base := _; OBTorsionData._torsions := [_] |}
            {| OBAngleData.base := _; OBAngleData._angles := [] |}
            _ _ _); simpl; lia.
Defined.
